(** * Event Explorer: list view, detail view, profile view

    A shallow embedding of the three route components of the
    application and of the browser services they call:

    - [EventDetailPage]: the detail page (fetch of one event, derived
      date, time and venue, registration toggle);
    - [EventsPage]: the list page (fetch of the catalogue, search
      filter, error panel);
    - [ProfilePage]: the profile page (sorted registrations, removal).

    Conventions of the embedding.

    - Numbers.  A JavaScript [number] that the code uses as an integer
      (event identifiers, time values in milliseconds) is a [Z]; the
      remainder operator [%] is the remainder of truncated division,
      [Z.rem].  A [number] that is only copied (price, rating) is a
      binary64 [float].
    - Dates.  A [Date] object is its time value in milliseconds.  The
      local-time methods ([getDate], [setDate], [toLocaleDateString])
      are written over the local time value [LocalTime(t)], [toISOString]
      over the UTC time value; the day, month and year arithmetic is
      that of ECMA-262, "Time Values and Time Range".  The conversion of
      a local time value back to UTC moves it by at most the width of a
      daylight-saving gap and keeps its calendar day; [TimeClip] only
      acts 100 million days away from 1970.  Neither is modelled.
    - Objects.  A property lookup on an object literal consults the own
      properties and then [Object.prototype] ([Js.getProperty]).
    - Storage.  [localStorage] is a finite map from keys to documents.
      A document is kept as the value handed to [JSON.stringify];
      reading applies [JSON.parse (JSON.stringify v)].  The store holds
      what the pages wrote, so [JSON.parse] does not throw, and no quota
      makes [setItem] throw: the [catch] branches of the storage
      handlers are not reachable and are left out.
    - Engine services whose result the pages only pass on
      ([String.prototype.toLowerCase], [Date.parse]) are parameters of
      the component that calls them.
    - React.  The state of a component is a record and [useState]
      setters are record updates; the values of [useAuth] and
      [useParams] are parameters of the component; a handler is a
      function from the state (and the store) before the call to the
      state (and the store) after it; the outcome of an awaited [fetch]
      is an argument of the handler that awaits it; the [useToast] queue
      is a field of the state. *)

From Stdlib Require Import ZArith String Ascii List Lia Bool.
From Stdlib Require Import DecimalString Floats.PrimFloat.
From Stdlib Require Import Sorting.Permutation Sorting.Sorted.
From stdpp Require Import gmap strings list fin_maps.

Local Open Scope string_scope.
Local Open Scope Z_scope.

(** ** JavaScript values used by the pages *)

Module Js.

(** [Number.prototype.toString] on an integer: decimal digits, with a
    leading minus sign for negative values. *)
Definition Number_toString (n : Z) : string :=
  match n with
  | Z0 => "0"
  | Zpos p => NilZero.string_of_uint (Pos.to_uint p)
  | Zneg p => "-" ++ NilZero.string_of_uint (Pos.to_uint p)
  end.

(** A double quote, and a text between double quotes. *)
Definition doubleQuote : string := String (ascii_of_nat 34) EmptyString.
Definition quoted (s : string) : string := doubleQuote ++ s ++ doubleQuote.

Fixpoint repeat_string (fill : string) (n : nat) : string :=
  match n with
  | O => ""
  | S n' => fill ++ repeat_string fill n'
  end.

(** [String.prototype.padStart] with a one-character filler. *)
Definition padStart (s : string) (targetLength : nat) (fill : string) : string :=
  repeat_string fill (targetLength - String.length s) ++ s.

(** [String.prototype.includes]: does [needle] occur in [hay]? *)
Fixpoint includes (hay needle : string) : bool :=
  String.prefix needle hay ||
  match hay with
  | EmptyString => false
  | String _ rest => includes rest needle
  end.

(** *** Time values (ECMA-262, "Time Values and Time Range") *)

Definition msPerDay : Z := 86400000.
Definition msPerHour : Z := 3600000.
Definition msPerMinute : Z := 60000.
Definition msPerSecond : Z := 1000.

Definition Day (t : Z) : Z := t / msPerDay.
Definition TimeWithinDay (t : Z) : Z := t mod msPerDay.

Definition isLeapYear (y : Z) : bool :=
  ((y mod 4 =? 0) && negb (y mod 100 =? 0)) || (y mod 400 =? 0).

Definition DaysInYear (y : Z) : Z := if isLeapYear y then 366 else 365.

Definition DayFromYear (y : Z) : Z :=
  365 * (y - 1970) + (y - 1969) / 4 - (y - 1901) / 100 + (y - 1601) / 400.

Definition TimeFromYear (y : Z) : Z := msPerDay * DayFromYear y.

(** The largest [y] with [TimeFromYear y <= t]: a first estimate from
    the mean length of the Gregorian year, corrected by one year. *)
Definition YearFromDay (d : Z) : Z :=
  let y := 1970 + (400 * d) / 146097 in
  if DayFromYear (y + 1) <=? d then y + 1
  else if d <? DayFromYear y then y - 1
  else y.

Definition YearFromTime (t : Z) : Z := YearFromDay (Day t).

Definition InLeapYear (t : Z) : Z := if isLeapYear (YearFromTime t) then 1 else 0.

Definition DayWithinYear (t : Z) : Z := Day t - DayFromYear (YearFromTime t).

(** Number of days of the year that precede month [m] (0 = January). *)
Definition daysBeforeMonth (leap : Z) (m : Z) : Z :=
  match m with
  | 0 => 0
  | 1 => 31
  | 2 => 59 + leap
  | 3 => 90 + leap
  | 4 => 120 + leap
  | 5 => 151 + leap
  | 6 => 181 + leap
  | 7 => 212 + leap
  | 8 => 243 + leap
  | 9 => 273 + leap
  | 10 => 304 + leap
  | _ => 334 + leap
  end.

Definition MonthFromTime (t : Z) : Z :=
  let d := DayWithinYear t in
  let leap := InLeapYear t in
  if d <? 31 then 0
  else if d <? 59 + leap then 1
  else if d <? 90 + leap then 2
  else if d <? 120 + leap then 3
  else if d <? 151 + leap then 4
  else if d <? 181 + leap then 5
  else if d <? 212 + leap then 6
  else if d <? 243 + leap then 7
  else if d <? 273 + leap then 8
  else if d <? 304 + leap then 9
  else if d <? 334 + leap then 10
  else 11.

Definition DateFromTime (t : Z) : Z :=
  DayWithinYear t - daysBeforeMonth (InLeapYear t) (MonthFromTime t) + 1.

Definition WeekDay (t : Z) : Z := (Day t + 4) mod 7.

Definition HourFromTime (t : Z) : Z := (t / msPerHour) mod 24.
Definition MinFromTime (t : Z) : Z := (t / msPerMinute) mod 60.
Definition SecFromTime (t : Z) : Z := (t / msPerSecond) mod 60.
Definition msFromTime (t : Z) : Z := t mod msPerSecond.

Definition MakeTime (hour min sec ms : Z) : Z :=
  hour * msPerHour + min * msPerMinute + sec * msPerSecond + ms.

(** [MakeDay year month date]: the day number of the first of the month
    [month] (which may lie outside 0..11 and then carries into the
    year), plus [date - 1]. *)
Definition MakeDay (year month date : Z) : Z :=
  let ym := year + month / 12 in
  let mn := month mod 12 in
  DayFromYear ym + daysBeforeMonth (if isLeapYear ym then 1 else 0) mn + date - 1.

Definition MakeDate (day time : Z) : Z := day * msPerDay + time.

(** [Date.prototype.getDate] and [Date.prototype.setDate], on the local
    time value of the receiver. *)
Definition getDate (t : Z) : Z := DateFromTime t.

Definition setDate (t : Z) (date : Z) : Z :=
  MakeDate (MakeDay (YearFromTime t) (MonthFromTime t) date) (TimeWithinDay t).

(** *** [Intl] date rendering for the locale "en-US"

    Gregorian calendar, years of the common era. *)

Definition weekdayLong (w : Z) : string :=
  match w with
  | 0 => "Sunday" | 1 => "Monday" | 2 => "Tuesday" | 3 => "Wednesday"
  | 4 => "Thursday" | 5 => "Friday" | _ => "Saturday"
  end.

Definition monthLong (m : Z) : string :=
  match m with
  | 0 => "January" | 1 => "February" | 2 => "March" | 3 => "April"
  | 4 => "May" | 5 => "June" | 6 => "July" | 7 => "August"
  | 8 => "September" | 9 => "October" | 10 => "November" | _ => "December"
  end.

Definition monthShort (m : Z) : string :=
  match m with
  | 0 => "Jan" | 1 => "Feb" | 2 => "Mar" | 3 => "Apr"
  | 4 => "May" | 5 => "Jun" | 6 => "Jul" | 7 => "Aug"
  | 8 => "Sep" | 9 => "Oct" | 10 => "Nov" | _ => "Dec"
  end.

(** [toLocaleDateString("en-US", { weekday: "long", month: "long",
    day: "numeric", year: "numeric" })], e.g. "Monday, November 3, 2025". *)
Definition toLocaleDateString_long (t : Z) : string :=
  weekdayLong (WeekDay t) ++ ", " ++ monthLong (MonthFromTime t) ++ " "
  ++ Number_toString (DateFromTime t) ++ ", " ++ Number_toString (YearFromTime t).

(** [toLocaleDateString("en-US", { month: "short", day: "numeric",
    year: "numeric" })], e.g. "Nov 3, 2025". *)
Definition toLocaleDateString_short (t : Z) : string :=
  monthShort (MonthFromTime t) ++ " " ++ Number_toString (DateFromTime t)
  ++ ", " ++ Number_toString (YearFromTime t).

Definition pad (width : nat) (n : Z) : string :=
  padStart (Number_toString n) width "0".

(** [Date.prototype.toISOString] on a UTC time value:
    "YYYY-MM-DDTHH:mm:ss.sssZ", with the expanded six-digit signed year
    outside 0..9999. *)
Definition toISOString (t : Z) : string :=
  let y := YearFromTime t in
  let year :=
    if (0 <=? y) && (y <=? 9999) then pad 4 y
    else (if y <? 0 then "-" else "+") ++ pad 6 (Z.abs y) in
  year ++ "-" ++ pad 2 (MonthFromTime t + 1) ++ "-" ++ pad 2 (DateFromTime t)
  ++ "T" ++ pad 2 (HourFromTime t) ++ ":" ++ pad 2 (MinFromTime t)
  ++ ":" ++ pad 2 (SecFromTime t) ++ "." ++ pad 3 (msFromTime t) ++ "Z".

(** *** [Number.parseInt] with no radix argument

    Leading white space (of the ASCII range) is skipped, a sign is
    read, the prefix "0x" or "0X" selects radix 16, and the longest run
    of digits is converted.  [None] stands for [NaN] (no digit was
    found). *)

Definition isWhiteSpace (c : ascii) : bool :=
  let n := Z.of_nat (nat_of_ascii c) in
  ((9 <=? n) && (n <=? 13)) || (n =? 32).

Fixpoint trimStart (s : string) : string :=
  match s with
  | String c rest => if isWhiteSpace c then trimStart rest else s
  | EmptyString => s
  end.

Definition digitValue (c : ascii) : option Z :=
  let n := Z.of_nat (nat_of_ascii c) in
  if (48 <=? n) && (n <=? 57) then Some (n - 48)
  else if (97 <=? n) && (n <=? 122) then Some (n - 87)
  else if (65 <=? n) && (n <=? 90) then Some (n - 55)
  else None.

Fixpoint parseDigits (radix : Z) (s : string) (acc : option Z) : option Z :=
  match s with
  | EmptyString => acc
  | String c rest =>
      match digitValue c with
      | Some d =>
          if d <? radix
          then parseDigits radix rest (Some (radix * default 0 acc + d))
          else acc
      | None => acc
      end
  end.

Definition parseInt (input : string) : option Z :=
  let s := trimStart input in
  let '(sign, s) :=
    match s with
    | String "-" rest => (-1, rest)
    | String "+" rest => (1, rest)
    | _ => (1, s)
    end in
  let '(radix, s) :=
    match s with
    | String "0" (String "x" rest) => (16, rest)
    | String "0" (String "X" rest) => (16, rest)
    | _ => (10, s)
    end in
  match parseDigits radix s None with
  | Some m => Some (sign * m)
  | None => None
  end.

(** *** Instances of engine services

    [String.prototype.toLowerCase] and [Date.parse] belong to the
    engine; the pages are written over any such functions.  The two
    definitions below are what they compute on ASCII text and on the
    date-time strings that [toISOString] writes; they serve to run the
    pages on concrete data. *)

Definition toLowerCase_ascii_char (c : ascii) : ascii :=
  let n := nat_of_ascii c in
  if ((65 <=? n) && (n <=? 90))%nat then ascii_of_nat (n + 32) else c.

Fixpoint toLowerCase_ascii (s : string) : string :=
  match s with
  | EmptyString => EmptyString
  | String c rest => String (toLowerCase_ascii_char c) (toLowerCase_ascii rest)
  end.

(** Reads exactly [n] decimal digits. *)
Fixpoint readDigits (n : nat) (acc : Z) (s : string) : option (Z * string) :=
  match n with
  | O => Some (acc, s)
  | S n' =>
      match s with
      | String c rest =>
          match digitValue c with
          | Some d => if d <? 10 then readDigits n' (10 * acc + d) rest else None
          | None => None
          end
      | EmptyString => None
      end
  end.

Definition expectChar (c : ascii) (s : string) : option string :=
  match s with
  | String c' rest => if Ascii.eqb c c' then Some rest else None
  | EmptyString => None
  end.

Definition DaysInMonth (y m : Z) : Z :=
  let leap := if isLeapYear y then 1 else 0 in
  if m =? 11 then 31 else daysBeforeMonth leap (m + 1) - daysBeforeMonth leap m.

(** "YYYY-MM-DDTHH:mm:ss.sssZ" *)
Definition Date_parse_iso (text : string) : option Z :=
  '(y, s) ← readDigits 4 0 text;
  s ← expectChar "-" s;
  '(mo, s) ← readDigits 2 0 s;
  s ← expectChar "-" s;
  '(d, s) ← readDigits 2 0 s;
  s ← expectChar "T" s;
  '(h, s) ← readDigits 2 0 s;
  s ← expectChar ":" s;
  '(mi, s) ← readDigits 2 0 s;
  s ← expectChar ":" s;
  '(sec, s) ← readDigits 2 0 s;
  s ← expectChar "." s;
  '(ms, s) ← readDigits 3 0 s;
  s ← expectChar "Z" s;
  if String.eqb s ""
     && (1 <=? mo) && (mo <=? 12) && (1 <=? d) && (d <=? DaysInMonth y (mo - 1))
     && (h <=? 23) && (mi <=? 59) && (sec <=? 59)
  then Some (MakeDate (MakeDay y (mo - 1) d) (MakeTime h mi sec ms))
  else None.

(** *** Array indexing

    [a[i]] for a number [i]: the element at a valid index, [undefined]
    ([None]) below zero and from the length on. *)
Definition Array_at {A : Type} (a : list A) (i : Z) : option A :=
  if i <? 0 then None else a !! Z.to_nat i.

(** *** Property lookup on an object literal

    [o[k]] on an object literal first looks among the literal's own
    properties and then along the prototype chain, which for a literal
    is [Object.prototype].  The values met by the pages are strings, the
    built-in members of [Object.prototype], and what [JSON] makes of
    them. *)

Inductive value : Type :=
| VString (s : string)
| VFunction (name : string)      (* the built-in function Object.prototype.<name>, or Object *)
| VObjectPrototype               (* the object Object.prototype *)
| VEmptyObject                   (* a plain object without own properties *)
| VUndefined.

(** The properties every object literal inherits. *)
Definition ObjectPrototype_get (k : string) : value :=
  if decide (k = "__proto__") then VObjectPrototype
  else if decide (k ∈ ["constructor"; "hasOwnProperty"; "isPrototypeOf";
                       "propertyIsEnumerable"; "toLocaleString"; "toString";
                       "valueOf"; "__defineGetter__"; "__defineSetter__";
                       "__lookupGetter__"; "__lookupSetter__"])
  then VFunction k
  else VUndefined.

(** An object literal with string-valued own properties, in source order. *)
Fixpoint ownProperty (o : list (string * string)) (k : string) : option string :=
  match o with
  | [] => None
  | (k', v) :: o' => if decide (k = k') then Some v else ownProperty o' k
  end.

Definition getProperty (o : list (string * string)) (k : string) : value :=
  match ownProperty o k with
  | Some v => VString v
  | None => ObjectPrototype_get k
  end.

(** [ToBoolean]: among the values above only [undefined] and the empty
    string are falsy. *)
Definition truthy (v : value) : bool :=
  match v with
  | VString s => negb (String.eqb s "")
  | VUndefined => false
  | _ => true
  end.

(** [a || b] *)
Definition or_else (a b : value) : value := if truthy a then a else b.

(** What [JSON.parse (JSON.stringify v)] returns for a property value:
    strings survive, function-valued properties are left out of the
    text, and an object without enumerable own properties becomes [{}]. *)
Definition JSON_roundtrip_value (v : value) : value :=
  match v with
  | VString s => VString s
  | VFunction _ => VUndefined
  | VObjectPrototype => VEmptyObject
  | VEmptyObject => VEmptyObject
  | VUndefined => VUndefined
  end.

End Js.

(** ** The data model *)

(** The signed-in user, as exposed by [useAuth].  The identifier is kept
    as the text that a template literal makes of it. *)
Module User.
Record t : Type := mk { id : string; name : string; email : string }.
End User.

(** [interface EventDetail] of the detail page. *)
Module EventDetail.
Record t : Type := mk {
  id : Z;
  title : string;
  description : string;
  price : float;
  thumbnail : string;
  images : list string;
  category : string;
  rating : float;
  stock : Z;
  brand : string;
  discountPercentage : float;
  tags : list string
}.
End EventDetail.

(** [interface Event] of the list page. *)
Module Event.
Record t : Type := mk {
  id : Z;
  title : string;
  description : string;
  price : float;
  thumbnail : string;
  category : string;
  rating : float;
  stock : Z;
  brand : string
}.
End Event.

(** [interface RegisteredEvent], declared with the same shape by the
    detail page and by the profile page.  [location] holds whatever
    [getLocation] returned. *)
Module RegisteredEvent.
Record t : Type := mk {
  id : Z;
  title : string;
  price : float;
  thumbnail : string;
  category : string;
  registeredAt : string;
  eventDate : string;
  location : Js.value
}.

(** [JSON.parse (JSON.stringify r)]: texts and the finite numbers of an
    API response come back as they were. *)
Definition JSON_roundtrip (r : t) : t :=
  mk (id r) (title r) (price r) (thumbnail r) (category r)
     (registeredAt r) (eventDate r) (Js.JSON_roundtrip_value (location r)).
End RegisteredEvent.

(** An entry of the [useToast] queue. *)
Module Toast.
Record t : Type := mk { title : string; description : string; variant : option string }.
End Toast.

(** ** [localStorage]

    Keys are strings.  The only documents the pages store are lists of
    registrations; a document is kept as the list that was serialised,
    and [getItem] followed by [JSON.parse] yields its round trip.  A key
    that was never written reads as [null]. *)
Abbreviation localStorage := (gmap string (list RegisteredEvent.t)).

Definition registrationsKey (u : User.t) : string := "registrations_" ++ User.id u.

(** [const s = localStorage.getItem(key); s ? JSON.parse(s) : []] *)
Definition readRegistrations (key : string) (ls : localStorage) : list RegisteredEvent.t :=
  match ls !! key with
  | Some doc => map RegisteredEvent.JSON_roundtrip doc
  | None => []
  end.

(** The registration list stored for user [u], as a page reads it. *)
Definition storedRegistrations (u : User.t) (ls : localStorage) : list RegisteredEvent.t :=
  readRegistrations (registrationsKey u) ls.

(** [Array.prototype.some] / membership of an identifier. *)
Definition hasId (n : Z) (l : list RegisteredEvent.t) : bool :=
  existsb (fun regEvent => RegisteredEvent.id regEvent =? n) l.

(** ** [Array.prototype.sort]

    The sort is stable; [comparefn a b] negative puts [a] first,
    positive puts [b] first.  A comparator result that is [NaN] ([None])
    counts as [+0]. *)
Section ArraySort.
Context {A : Type} (comparefn : A -> A -> option Z).

Definition SortCompare (x y : A) : Z := default 0 (comparefn x y).

Fixpoint sortInsert (x : A) (sorted : list A) : list A :=
  match sorted with
  | [] => [x]
  | y :: rest =>
      if SortCompare x y <=? 0 then x :: y :: rest
      else y :: sortInsert x rest
  end.

Fixpoint Array_sort (l : list A) : list A :=
  match l with
  | [] => []
  | x :: rest => sortInsert x (Array_sort rest)
  end.
End ArraySort.

(** ** The detail page ([EventDetailContent]) *)

Module EventDetailPage.

Record State : Type := mkState {
  event : option EventDetail.t;
  loading : bool;
  error : option string;
  currentImageIndex : Z;
  isRegistered : bool;
  registering : bool;
  toasts : list Toast.t
}.

(** The values given to [useState] at mount. *)
Definition initialState : State :=
  mkState None true None 0 false false [].

Definition setEvent (v : option EventDetail.t) (s : State) : State :=
  mkState v (loading s) (error s) (currentImageIndex s) (isRegistered s) (registering s) (toasts s).
Definition setLoading (v : bool) (s : State) : State :=
  mkState (event s) v (error s) (currentImageIndex s) (isRegistered s) (registering s) (toasts s).
Definition setError (v : option string) (s : State) : State :=
  mkState (event s) (loading s) v (currentImageIndex s) (isRegistered s) (registering s) (toasts s).
Definition setIsRegistered (v : bool) (s : State) : State :=
  mkState (event s) (loading s) (error s) (currentImageIndex s) v (registering s) (toasts s).
Definition setRegistering (v : bool) (s : State) : State :=
  mkState (event s) (loading s) (error s) (currentImageIndex s) (isRegistered s) v (toasts s).
Definition toast (t : Toast.t) (s : State) : State :=
  mkState (event s) (loading s) (error s) (currentImageIndex s) (isRegistered s) (registering s)
          (toasts s ++ [t])%list.
Definition setCurrentImageIndex (v : Z) (s : State) : State :=
  mkState (event s) (loading s) (error s) v (isRegistered s) (registering s) (toasts s).

(** How [fetch] and [response.json()] can end. *)
Inductive FetchResult : Type :=
| NetworkError
| Response (ok : bool) (json : option EventDetail.t).

(** [formatDate]: the base date is the clock reading [now] (local time
    value of [new Date()]). *)
Definition formatDate_baseDate (now : Z) (eventId : Z) : Z :=
  let baseDate := now in
  Js.setDate baseDate (Js.getDate baseDate + Z.rem eventId 30 + 1).

Definition formatDate (now : Z) (eventId : Z) : string :=
  Js.toLocaleDateString_long (formatDate_baseDate now eventId).

Definition formatTime (eventId : Z) : string :=
  let hours := 9 + Z.rem eventId 8 in
  let minutes := Z.rem eventId 4 * 15 in
  Js.Number_toString hours ++ ":" ++ Js.padStart (Js.Number_toString minutes) 2 "0"
  ++ " " ++ (if 12 <=? hours then "PM" else "AM").

Definition locations : list (string * string) :=
  [ ("smartphones", "Tech Center, Silicon Valley");
    ("laptops", "Innovation Hub, Downtown");
    ("fragrances", "Wellness Center, Midtown");
    ("skincare", "Beauty Lounge, Fashion District");
    ("groceries", "Community Hall, Central Park");
    ("home-decoration", "Design Studio, Arts Quarter");
    ("furniture", "Exhibition Center, Convention Ave");
    ("tops", "Fashion District, Style Street");
    ("womens-dresses", "Style Arena, Fashion Plaza");
    ("womens-shoes", "Fashion Plaza, Boutique Row");
    ("mens-shirts", "Men's Pavilion, Commerce St");
    ("mens-shoes", "Sports Complex, Athletic Ave");
    ("mens-watches", "Luxury Lounge, Premium Plaza");
    ("womens-watches", "Elegance Hall, Jewelry District");
    ("womens-bags", "Accessories Center, Style Square");
    ("womens-jewellery", "Jewelry Gallery, Diamond Row");
    ("sunglasses", "Outdoor Plaza, Sunshine Blvd");
    ("automotive", "Auto Expo Center, Motor Mile");
    ("motorcycle", "Motor Sports Arena, Speed Way");
    ("lighting", "Design Center, Innovation Park") ].

Definition getLocation (category : string) : Js.value :=
  Js.or_else (Js.getProperty locations category) (Js.VString "Event Center, Main Street").

Section Component.
(** The values of [useAuth().user] and of the route parameter
    [params.id] at the render whose closures run. *)
Variable user : option User.t.
Variable eventId : string.

Definition fetchEventDetail (r : FetchResult) (s : State) : State :=
  let s := setLoading true s in
  let s := setError None s in
  let s :=
    match r with
    | Response true (Some data) => setEvent (Some data) s
    | _ =>
        toast (Toast.mk "Error" "Failed to load event details." (Some "destructive"))
              (setError (Some "Failed to load event details. Please try again.") s)
    end in
  setLoading false s.

Definition getRegisteredEvents (ls : localStorage) : list RegisteredEvent.t :=
  match user with
  | None => []
  | Some u => readRegistrations (registrationsKey u) ls
  end.

Definition saveRegisteredEvents (events : list RegisteredEvent.t) (ls : localStorage)
  : localStorage :=
  match user with
  | None => ls
  | Some u => <[registrationsKey u := events]> ls
  end.

(** [regEvent.id === Number.parseInt(eventId)]; nothing equals [NaN]. *)
Definition checkRegistrationStatus (ls : localStorage) (s : State) : State :=
  match user with
  | None => s
  | Some _ =>
      let registeredEvents := getRegisteredEvents ls in
      let isAlreadyRegistered :=
        existsb (fun regEvent =>
                   match Js.parseInt eventId with
                   | Some n => RegisteredEvent.id regEvent =? n
                   | None => false
                   end) registeredEvents in
      setIsRegistered isAlreadyRegistered s
  end.

(** The two effects: [fetchEventDetail] when [eventId] is set, and
    [checkRegistrationStatus] when both [user] and [eventId] are. *)
Definition effect_fetchEventDetail (r : FetchResult) (s : State) : State :=
  if String.eqb eventId "" then s else fetchEventDetail r s.

Definition effect_checkRegistrationStatus (ls : localStorage) (s : State) : State :=
  match user with
  | Some _ => if String.eqb eventId "" then s else checkRegistrationStatus ls s
  | None => s
  end.

(** The object literal [newRegistration] of [handleRegister].
    [nowRegistered] is the UTC time value of the [new Date()] of
    [registeredAt], [nowFormat] the local time value of the
    [new Date()] inside [formatDate]. *)
Definition newRegistration (nowRegistered nowFormat : Z) (event : EventDetail.t)
  : RegisteredEvent.t :=
  RegisteredEvent.mk
    (EventDetail.id event)
    (EventDetail.title event)
    (EventDetail.price event)
    (EventDetail.thumbnail event)
    (EventDetail.category event)
    (Js.toISOString nowRegistered)
    (formatDate nowFormat (EventDetail.id event))
    (getLocation (EventDetail.category event)).

(** [isRegistered] is the value of the state at the render whose
    closure runs; the list is read from the store at the click. *)
Definition handleRegister (nowRegistered nowFormat : Z) (ls : localStorage) (s : State)
  : localStorage * State :=
  match user, event s with
  | Some _, Some event =>
      let s := setRegistering true s in
      let registeredEvents := getRegisteredEvents ls in
      let '(ls, s) :=
        if isRegistered s then
          let updatedEvents :=
            List.filter
              (fun regEvent => negb (RegisteredEvent.id regEvent =? EventDetail.id event))
              registeredEvents in
          let ls := saveRegisteredEvents updatedEvents ls in
          let s := setIsRegistered false s in
          (ls, toast (Toast.mk "Unregistered Successfully"
                        ("You have been unregistered from "
                         ++ Js.quoted (EventDetail.title event) ++ ".")
                        None) s)
        else
          let updatedEvents :=
            (registeredEvents ++ [newRegistration nowRegistered nowFormat event])%list in
          let ls := saveRegisteredEvents updatedEvents ls in
          let s := setIsRegistered true s in
          (ls, toast (Toast.mk "Registration Successful!"
                        ("You have successfully registered for "
                         ++ Js.quoted (EventDetail.title event) ++ ".")
                        None) s)
      in
      (ls, setRegistering false s)
  | _, _ => (ls, s)
  end.

(** The derived fields of the "Event Information" card, rendered at
    clock reading [now]. *)
Record EventInformation : Type := mkEventInformation {
  dateText : string;
  timeText : string;
  venue : Js.value
}.

Definition renderEventInformation (now : Z) (event : EventDetail.t) : EventInformation :=
  mkEventInformation
    (formatDate now (EventDetail.id event))
    (formatTime (EventDetail.id event))
    (getLocation (EventDetail.category event)).

(** [event.images && event.images.length > 0 ? event.images :
    [event.thumbnail]]; an event without [images] is one whose list is
    empty. *)
Definition allImages (event : EventDetail.t) : list string :=
  match EventDetail.images event with
  | [] => [EventDetail.thumbnail event]
  | images => images
  end.

(** [src || "/placeholder.svg"] where [src] may be [undefined]. *)
Definition orPlaceholder (src : option string) : string :=
  match src with
  | Some image => if String.eqb image "" then "/placeholder.svg" else image
  | None => "/placeholder.svg"
  end.

(** A button of the thumbnail strip. *)
Record Thumbnail : Type := mkThumbnail {
  thumbnailSrc : string;
  thumbnailAlt : string;
  selected : bool;
  selectImage : State -> State
}.

Fixpoint thumbnailStrip_from (event : EventDetail.t) (s : State)
  (index : Z) (images : list string) : list Thumbnail :=
  match images with
  | [] => []
  | image :: rest =>
      mkThumbnail (orPlaceholder (Some image))
        (EventDetail.title event ++ " " ++ Js.Number_toString (index + 1))
        (currentImageIndex s =? index)
        (setCurrentImageIndex index)
      :: thumbnailStrip_from event s (index + 1) rest
  end.

(** [allImages.length > 1 && allImages.map(...)] *)
Definition thumbnailStrip (event : EventDetail.t) (s : State) : list Thumbnail :=
  if (1 <? length (allImages event))%nat
  then thumbnailStrip_from event s 0 (allImages event)
  else [].

(** The registration button: [disabled], [variant] and the text of its
    label; its [onClick] is [handleRegister]. *)
Record RegisterButton : Type := mkRegisterButton {
  disabled : bool;
  variant : string;
  label : string;
  onClick : Z -> Z -> localStorage -> State -> localStorage * State
}.

Definition registerButton (event : EventDetail.t) (s : State) : RegisterButton :=
  mkRegisterButton
    (registering s || (EventDetail.stock event =? 0))
    (if isRegistered s then "secondary" else "default")
    (if registering s then "Processing..."
     else if EventDetail.stock event =? 0 then "Sold Out"
     else if isRegistered s then "Registered - Click to Unregister"
     else "Register for Event")
    handleRegister.

(** What the page shows of a loaded event.  Numbers are kept as
    numbers: [discountBadge] is the percentage handed to [Math.round],
    [spots] the count before " spots available".  [thumbnails] and
    [topics] are empty when their section is not rendered. *)
Record DetailView : Type := mkDetailView {
  mainImageSrc : string;
  mainImageAlt : string;
  discountBadge : option float;
  registeredBadge : bool;
  thumbnails : list Thumbnail;
  categoryBadge : string;
  ratingShown : float;
  heading : string;
  body : string;
  information : EventInformation;
  spots : Z;
  topics : list string;
  priceShown : float;
  organizedBy : option string;
  button : RegisterButton;
  footnote : string
}.

Definition renderDetail (now : Z) (event : EventDetail.t) (s : State) : DetailView :=
  mkDetailView
    (orPlaceholder (Js.Array_at (allImages event) (currentImageIndex s)))
    (EventDetail.title event)
    (if PrimFloat.ltb 0 (EventDetail.discountPercentage event)
     then Some (EventDetail.discountPercentage event) else None)
    (isRegistered s)
    (thumbnailStrip event s)
    (EventDetail.category event)
    (EventDetail.rating event)
    (EventDetail.title event)
    (EventDetail.description event)
    (renderEventInformation now event)
    (EventDetail.stock event)
    (EventDetail.tags event)
    (EventDetail.price event)
    (if String.eqb (EventDetail.brand event) "" then None else Some (EventDetail.brand event))
    (registerButton event s)
    (if isRegistered s
     then "You can unregister up to 24 hours before the event"
     else "Free cancellation up to 24 hours before the event").

(** What the component returns: the spinner while [loading]; the "Event
    Not Found" card when [error] is set or no event is loaded, with its
    description and the handler of its "Try Again" button; else the
    event. *)
Inductive View : Type :=
| Spinner
| NotFound (description : string) (tryAgain : FetchResult -> State -> State)
| Detail (view : DetailView).

Definition render (now : Z) (s : State) : View :=
  if loading s then Spinner
  else
    let errorShown := match error s with
                      | Some msg => negb (String.eqb msg "")
                      | None => false
                      end in
    match event s with
    | Some event =>
        if errorShown
        then NotFound (default "" (error s)) fetchEventDetail
        else Detail (renderDetail now event s)
    | None =>
        NotFound (if errorShown then default "" (error s)
                  else "The event you're looking for doesn't exist.")
                 fetchEventDetail
    end.
End Component.

End EventDetailPage.

(** ** The list page ([EventsContent]) *)

Module EventsPage.

Record State : Type := mkState {
  events : list Event.t;
  loading : bool;
  searchTerm : string;
  error : option string;
  toasts : list Toast.t
}.

Definition initialState : State := mkState [] true "" None [].

Definition setEvents (v : list Event.t) (s : State) : State :=
  mkState v (loading s) (searchTerm s) (error s) (toasts s).
Definition setLoading (v : bool) (s : State) : State :=
  mkState (events s) v (searchTerm s) (error s) (toasts s).
Definition setSearchTerm (v : string) (s : State) : State :=
  mkState (events s) (loading s) v (error s) (toasts s).
Definition setError (v : option string) (s : State) : State :=
  mkState (events s) (loading s) (searchTerm s) v (toasts s).
Definition toast (t : Toast.t) (s : State) : State :=
  mkState (events s) (loading s) (searchTerm s) (error s) (toasts s ++ [t])%list.

(** The body of the catalogue response, [{ products: [...] }]. *)
Record ProductsResponse : Type := mkProductsResponse { products : list Event.t }.

(** How [fetch] and [response.json()] can end: [fetch] rejects, or it
    resolves to a response with its [ok] flag whose body parses
    ([Some]) or does not ([None]). *)
Inductive FetchResult : Type :=
| NetworkError
| Response (ok : bool) (json : option ProductsResponse).

Definition fetchEvents (r : FetchResult) (s : State) : State :=
  let s := setLoading true s in
  let s := setError None s in
  let s :=
    match r with
    | Response true (Some data) => setEvents (products data) s
    | _ =>
        toast (Toast.mk "Error" "Failed to load events. Please check your connection."
                        (Some "destructive"))
              (setError (Some "Failed to load events. Please try again.") s)
    end in
  setLoading false s.

Definition formatDate_baseDate (now : Z) (eventId : Z) : Z :=
  let baseDate := now in
  Js.setDate baseDate (Js.getDate baseDate + Z.rem eventId 30 + 1).

Definition formatDate (now : Z) (eventId : Z) : string :=
  Js.toLocaleDateString_short (formatDate_baseDate now eventId).

Definition locations : list (string * string) :=
  [ ("smartphones", "Tech Center");
    ("laptops", "Innovation Hub");
    ("fragrances", "Wellness Center");
    ("skincare", "Beauty Lounge");
    ("groceries", "Community Hall");
    ("home-decoration", "Design Studio");
    ("furniture", "Exhibition Center");
    ("tops", "Fashion District");
    ("womens-dresses", "Style Arena");
    ("womens-shoes", "Fashion Plaza");
    ("mens-shirts", "Men's Pavilion");
    ("mens-shoes", "Sports Complex");
    ("mens-watches", "Luxury Lounge");
    ("womens-watches", "Elegance Hall");
    ("womens-bags", "Accessories Center");
    ("womens-jewellery", "Jewelry Gallery");
    ("sunglasses", "Outdoor Plaza");
    ("automotive", "Auto Expo Center");
    ("motorcycle", "Motor Sports Arena");
    ("lighting", "Design Center") ].

Definition getLocation (category : string) : Js.value :=
  Js.or_else (Js.getProperty locations category) (Js.VString "Event Center").

(** [handleEventClick]: the path handed to [router.push]. *)
Definition handleEventClick (eventId : Z) : string :=
  "/events/" ++ Js.Number_toString eventId.

Section Component.
(** [String.prototype.toLowerCase] of the engine. *)
Variable toLowerCase : string -> string.

Definition matchesSearch (searchTerm : string) (event : Event.t) : bool :=
  Js.includes (toLowerCase (Event.title event)) (toLowerCase searchTerm)
  || Js.includes (toLowerCase (Event.category event)) (toLowerCase searchTerm).

Definition filteredEvents (s : State) : list Event.t :=
  List.filter (fun event => matchesSearch (searchTerm s) event) (events s).

(** What the component returns: the spinner while [loading], else the
    page with the optional error panel (message and the handler of its
    "Try Again" button), the cards of the filtered events, and the
    empty-state notice. *)
Record ErrorPanel : Type := mkErrorPanel {
  message : string;
  tryAgain : FetchResult -> State -> State
}.

Inductive View : Type :=
| Spinner
| Page (errorPanel : option ErrorPanel) (cards : list Event.t) (emptyState : bool).

Definition render (s : State) : View :=
  if loading s then Spinner
  else
    let shown := match error s with
                 | Some msg => negb (String.eqb msg "")
                 | None => false
                 end in
    Page (match error s with
          | Some msg => if shown then Some (mkErrorPanel msg fetchEvents) else None
          | None => None
          end)
         (filteredEvents s)
         ((length (filteredEvents s) =? 0)%nat && negb (loading s) && negb shown).
End Component.

End EventsPage.

(** ** The profile page ([ProfileContent]) *)

Module ProfilePage.

Record State : Type := mkState {
  registeredEvents : list RegisteredEvent.t;
  loading : bool;
  toasts : list Toast.t
}.

Definition initialState : State := mkState [] true [].

Definition setRegisteredEvents (v : list RegisteredEvent.t) (s : State) : State :=
  mkState v (loading s) (toasts s).
Definition setLoading (v : bool) (s : State) : State :=
  mkState (registeredEvents s) v (toasts s).
Definition toast (t : Toast.t) (s : State) : State :=
  mkState (registeredEvents s) (loading s) (toasts s ++ [t])%list.

Section Component.
Variable user : option User.t.
(** [new Date(text).getTime()] of the engine; [None] is [NaN]. *)
Variable Date_getTime : string -> option Z.

(** [new Date(b.registeredAt).getTime() - new Date(a.registeredAt).getTime()];
    the difference is [NaN] as soon as one side is. *)
Definition byRegistrationDate (a b : RegisteredEvent.t) : option Z :=
  match Date_getTime (RegisteredEvent.registeredAt b),
        Date_getTime (RegisteredEvent.registeredAt a) with
  | Some tb, Some ta => Some (tb - ta)
  | _, _ => None
  end.

Definition loadRegisteredEvents (ls : localStorage) (s : State) : State :=
  match user with
  | None => s
  | Some u =>
      let events := readRegistrations (registrationsKey u) ls in
      let sortedEvents := Array_sort byRegistrationDate events in
      setLoading false (setRegisteredEvents sortedEvents s)
  end.

Definition handleUnregister (eventId : Z) (eventTitle : string)
  (ls : localStorage) (s : State) : localStorage * State :=
  match user with
  | None => (ls, s)
  | Some u =>
      let updatedEvents :=
        List.filter (fun event => negb (RegisteredEvent.id event =? eventId))
               (registeredEvents s) in
      let ls := <[registrationsKey u := updatedEvents]> ls in
      let s := setRegisteredEvents updatedEvents s in
      (ls, toast (Toast.mk "Unregistered Successfully"
                    ("You have been unregistered from " ++ Js.quoted eventTitle ++ ".")
                    None) s)
  end.

(** [handleViewEvent]: the path handed to [router.push]. *)
Definition handleViewEvent (eventId : Z) : string :=
  "/events/" ++ Js.Number_toString eventId.

(** [registeredEvents.reduce((total, event) => total + event.price, 0)] *)
Definition getTotalSpent (s : State) : float :=
  fold_left (fun total event => PrimFloat.add total (RegisteredEvent.price event))
            (registeredEvents s) 0%float.

(** [new Set(registeredEvents.map((e) => e.category)).size] *)
Definition categoriesCount (s : State) : nat :=
  size (list_to_set (map RegisteredEvent.category (registeredEvents s)) : gset string).

(** The badge beside "My Registered Events":
    [{n} event{n !== 1 ? "s" : ""}]. *)
Definition countBadge (n : nat) : string :=
  Js.Number_toString (Z.of_nat n) ++ " event" ++ (if (n =? 1)%nat then "" else "s").

(** What the component returns: the spinner while [loading], else the
    three counters of the header card, the badge (only with at least one
    registration) and either the "No Events Registered" card or one card
    per registration, in the order of the state. *)
Inductive Listing : Type :=
| NoEventsRegistered
| Cards (registrations : list RegisteredEvent.t).

Record PageView : Type := mkPageView {
  userName : option string;
  userEmail : option string;
  eventsRegistered : nat;
  totalSpent : float;
  categories : nat;
  badge : option string;
  listing : Listing
}.

Inductive View : Type :=
| Spinner
| Page (view : PageView).

Definition render (s : State) : View :=
  if loading s then Spinner
  else
    let n := length (registeredEvents s) in
    Page (mkPageView
            (User.name <$> user)
            (User.email <$> user)
            n
            (getTotalSpent s)
            (categoriesCount s)
            (if (0 <? n)%nat then Some (countBadge n) else None)
            (if (n =? 0)%nat then NoEventsRegistered else Cards (registeredEvents s))).
End Component.

End ProfilePage.

(** * Vocabulary of the properties *)

(** [needle] occurs in [hay] as a substring. *)
Definition occursIn (needle hay : string) : Prop :=
  exists before after : string, hay = before ++ needle ++ after.

(** "At most one registration per event": no identifier occurs twice. *)
Definition uniqueIds (l : list RegisteredEvent.t) : Prop :=
  List.NoDup (map RegisteredEvent.id l).

(** A list that was read from the store is a fixed point of the round
    trip, and so is every list made of its elements. *)
Definition roundtripStable (l : list RegisteredEvent.t) : Prop :=
  Forall (fun r => RegisteredEvent.JSON_roundtrip r = r) l.

(** The predicate of both unregister paths, [r.id !== eventId]. *)
Definition otherThan (eventId : Z) (r : RegisteredEvent.t) : bool :=
  negb (RegisteredEvent.id r =? eventId).

(** [a] was registered no earlier than [b], by the time values that the
    engine reads from their [registeredAt] texts. *)
Definition notOlder (Date_getTime : string -> option Z) (a b : RegisteredEvent.t) : Prop :=
  exists ta tb : Z,
    Date_getTime (RegisteredEvent.registeredAt a) = Some ta
    /\ Date_getTime (RegisteredEvent.registeredAt b) = Some tb
    /\ tb <= ta.

(** A storage operation uses only the key [k]: it leaves every other
    key as it was, and what it writes under [k] and what it returns
    depend on the store through the entry of [k] alone. *)
Definition usesOnlyKey {X : Type} (k : string) (op : localStorage -> localStorage * X) : Prop :=
  (forall (ls : localStorage) (k' : string), k' <> k -> (op ls).1 !! k' = ls !! k')
  /\ (forall ls1 ls2 : localStorage,
        ls1 !! k = ls2 !! k ->
        (op ls1).1 !! k = (op ls2).1 !! k /\ (op ls1).2 = (op ls2).2).

(** The fetch failed: [fetch] rejected, the response was not [ok], or
    its body could not be read. *)
Definition fetchFailed (r : EventsPage.FetchResult) : Prop :=
  match r with
  | EventsPage.Response true (Some _) => False
  | _ => True
  end.

(** Reading back [k] digits from the text that [pad k] makes of [n]
    gives [n] and consumes the text. *)
Definition padReadsBack (k : nat) (n : Z) : bool :=
  match Js.readDigits k 0 (Js.pad k n) with
  | Some (m, EmptyString) => m =? n
  | _ => false
  end.

(** ** Sample data *)

Definition sampleEvent : EventDetail.t :=
  EventDetail.mk 1 "Essence Mascara Lash Princess" "Volumising mascara" 9.5%float
    "https://cdn.dummyjson.com/1/thumbnail.webp" [] "beauty" 2.5%float 99 "Essence"
    10.5%float ["beauty"; "mascara"].

Definition sampleCatalogue : list Event.t :=
  [ Event.mk 1 "Essence Mascara" "Volumising mascara" 9.5%float "/1.webp" "beauty"
             2.5%float 99 "Essence";
    Event.mk 2 "iPhone 15" "A phone" 999%float "/2.webp" "smartphones"
             4.5%float 7 "Apple";
    Event.mk 3 "Phone Stand" "A stand" 12%float "/3.webp" "mobile-accessories"
             4%float 30 "Generic" ].

Definition sampleUser : User.t := User.mk "u1" "Ada" "ada@example.com".
Definition otherUser : User.t := User.mk "u2" "Bob" "bob@example.com".

Definition sampleRegistration (id : Z) (registeredAt : string) : RegisteredEvent.t :=
  RegisteredEvent.mk id "Event" 10%float "/t.webp" "laptops" registeredAt
    "Monday, November 10, 2025" (Js.VString "Innovation Hub, Downtown").

(** Three registrations in the order in which they were made. *)
Definition sampleRegistrations : list RegisteredEvent.t :=
  [ sampleRegistration 1 "2025-11-01T10:00:00.000Z";
    sampleRegistration 2 "2025-11-02T10:00:00.000Z";
    sampleRegistration 3 "2025-11-03T10:00:00.000Z" ].

Definition sampleStorage : localStorage :=
  {[ registrationsKey sampleUser := sampleRegistrations ]}.

(** * Properties *)

(** ** Calendar arithmetic *)

Section TimeValues.
Import Js.

Lemma msPerDay_pos : 0 < msPerDay.
Proof. reflexivity. Qed.

Lemma MonthFromTime_range t : 0 <= MonthFromTime t <= 11.
Proof.
  unfold MonthFromTime.
  repeat match goal with
         | |- context [if ?b then _ else _] => destruct b
         end; lia.
Qed.


Lemma TimeWithinDay_decompose t : Day t * msPerDay + TimeWithinDay t = t.
Proof.
  unfold Day, TimeWithinDay.
  pose proof (Z.div_mod t msPerDay ltac:(discriminate)). lia.
Qed.



Lemma toLocaleDateString_short_Day t1 t2 :
  Day t1 = Day t2 -> toLocaleDateString_short t1 = toLocaleDateString_short t2.
Proof.
  intros H.
  unfold toLocaleDateString_short, DateFromTime, MonthFromTime,
    DayWithinYear, InLeapYear, YearFromTime.
  now rewrite H.
Qed.


(** The year computed for a day number is the year that contains it:
    [DayFromYear] steps by the length of the year, and the day lies
    between the first day of its year and the first of the next. *)
Lemma DayFromYear_succ y : DayFromYear (y + 1) = DayFromYear y + DaysInYear y.
Proof.
  unfold DayFromYear, DaysInYear, isLeapYear.
  destruct (Z.eqb_spec (y mod 4) 0), (Z.eqb_spec (y mod 100) 0), (Z.eqb_spec (y mod 400) 0);
    simpl; Z.div_mod_to_equations; lia.
Qed.

Lemma YearFromDay_spec d :
  DayFromYear (YearFromDay d) <= d < DayFromYear (YearFromDay d + 1).
Proof.
  unfold YearFromDay.
  set (y := 1970 + 400 * d / 146097).
  destruct (Z.leb_spec (DayFromYear (y + 1)) d) as [H1|H1].
  - split; [exact H1|]. subst y. unfold DayFromYear in *.
    Z.div_mod_to_equations; lia.
  - destruct (Z.ltb_spec d (DayFromYear y)) as [H2|H2].
    + split; [|now replace (y - 1 + 1) with y by lia].
      subst y. unfold DayFromYear in *. Z.div_mod_to_equations; lia.
    + split; assumption.
Qed.

Lemma DayFromYear_monotone y1 y2 : y1 <= y2 -> DayFromYear y1 <= DayFromYear y2.
Proof. intros H. unfold DayFromYear. Z.div_mod_to_equations. lia. Qed.

(** [YearFromTime t] is the largest [y] with [TimeFromYear y <= t]. *)
Lemma YearFromTime_largest t :
  TimeFromYear (YearFromTime t) <= t
  /\ forall y, TimeFromYear y <= t -> y <= YearFromTime t.
Proof.
  pose proof (YearFromDay_spec (Day t)) as [Hlo Hhi].
  pose proof (TimeWithinDay_decompose t) as Ht.
  assert (Hw : 0 <= TimeWithinDay t < msPerDay) by (apply Z.mod_pos_bound; reflexivity).
  unfold TimeFromYear, YearFromTime. split.
  - unfold msPerDay in *. lia.
  - intros y Hy.
    destruct (Z.le_gt_cases y (YearFromDay (Day t))) as [Hle|Hgt]; [exact Hle|].
    pose proof (DayFromYear_monotone (YearFromDay (Day t) + 1) y ltac:(lia)) as Hmono.
    unfold msPerDay in *. lia.
Qed.

Lemma DayWithinYear_range t : 0 <= DayWithinYear t < DaysInYear (YearFromTime t).
Proof.
  unfold DayWithinYear, YearFromTime.
  pose proof (YearFromDay_spec (Day t)) as H. rewrite DayFromYear_succ in H. lia.
Qed.

Lemma DateFromTime_range t :
  1 <= DateFromTime t <= DaysInMonth (YearFromTime t) (MonthFromTime t).
Proof.
  pose proof (DayWithinYear_range t) as H.
  unfold DateFromTime, DaysInMonth, MonthFromTime, InLeapYear, DaysInYear in *.
  destruct (isLeapYear (YearFromTime t));
  repeat match goal with
         | |- context [if ?a <? ?b then _ else _] => destruct (Z.ltb_spec a b)
         end; simpl; lia.
Qed.

(** The calendar fields of a time value rebuild it. *)
Lemma MakeDay_fields t : MakeDay (YearFromTime t) (MonthFromTime t) (DateFromTime t) = Day t.
Proof.
  unfold MakeDay, DateFromTime, DayWithinYear, InLeapYear.
  pose proof (MonthFromTime_range t) as Hm.
  rewrite (Z.div_small (MonthFromTime t) 12), (Z.mod_small (MonthFromTime t) 12) by lia.
  rewrite Z.add_0_r. lia.
Qed.

Lemma MakeTime_fields t :
  MakeTime (HourFromTime t) (MinFromTime t) (SecFromTime t) (msFromTime t) = TimeWithinDay t.
Proof.
  unfold MakeTime, HourFromTime, MinFromTime, SecFromTime, msFromTime, TimeWithinDay,
    msPerHour, msPerMinute, msPerSecond, msPerDay.
  Z.div_mod_to_equations. lia.
Qed.

Lemma readDigits_app k : forall acc s m s' rest,
  readDigits k acc s = Some (m, s') ->
  readDigits k acc (s ++ rest) = Some (m, s' ++ rest).
Proof.
  induction k as [|k IH]; simpl; intros acc s m s' rest H.
  - now injection H as <- <-.
  - destruct s as [|c s]; [discriminate H|]. simpl.
    destruct (digitValue c) as [d|]; [|discriminate H].
    destruct (d <? 10); [|discriminate H]. now apply IH.
Qed.

Lemma padReadsBack_upto (k : nat) (bound : Z) (n : Z) (rest : string) :
  forallb (padReadsBack k) (map Z.of_nat (seq 0 (Z.to_nat bound))) = true ->
  0 <= n < bound ->
  readDigits k 0 (pad k n ++ rest) = Some (n, rest).
Proof.
  intros Hall Hn. rewrite forallb_forall in Hall.
  assert (Hin : In n (map Z.of_nat (seq 0 (Z.to_nat bound)))).
  { apply in_map_iff. exists (Z.to_nat n). split; [lia|]. apply in_seq. lia. }
  specialize (Hall n Hin). unfold padReadsBack in Hall.
  destruct (readDigits k 0 (pad k n)) as [[m s']|] eqn:Hr; [|discriminate Hall].
  destruct s'; [|discriminate Hall]. apply Z.eqb_eq in Hall. subst m.
  now apply (readDigits_app k 0 (pad k n) n "" rest).
Qed.

(** Checked by evaluation on every value of two, three and four digits. *)
Lemma pad2_readsBack : forallb (padReadsBack 2) (map Z.of_nat (seq 0 (Z.to_nat 100))) = true.
Proof. vm_compute. reflexivity. Qed.
Lemma pad3_readsBack : forallb (padReadsBack 3) (map Z.of_nat (seq 0 (Z.to_nat 1000))) = true.
Proof. vm_compute. reflexivity. Qed.
Lemma pad4_readsBack : forallb (padReadsBack 4) (map Z.of_nat (seq 0 (Z.to_nat 10000))) = true.
Proof. vm_compute. reflexivity. Qed.

Lemma expectChar_here (c : Ascii.ascii) (rest : string) :
  expectChar c (String c "" ++ rest) = Some rest.
Proof. simpl. now rewrite Ascii.eqb_refl. Qed.

(** The text that [toISOString] writes for a time value in the years
    0 to 9999 reads back as that time value. *)
Lemma Date_parse_iso_toISOString t :
  0 <= YearFromTime t <= 9999 -> Date_parse_iso (toISOString t) = Some t.
Proof.
  intros Hy. unfold toISOString.
  replace ((0 <=? YearFromTime t) && (YearFromTime t <=? 9999)) with true
    by (symmetry; apply andb_true_iff; split; apply Z.leb_le; lia).
  pose proof (MonthFromTime_range t) as Hmo.
  pose proof (DateFromTime_range t) as Hd.
  assert (Hdim : DaysInMonth (YearFromTime t) (MonthFromTime t) <= 31).
  { unfold DaysInMonth.
    assert (Hcases : MonthFromTime t = 0 \/ MonthFromTime t = 1 \/ MonthFromTime t = 2
                     \/ MonthFromTime t = 3 \/ MonthFromTime t = 4 \/ MonthFromTime t = 5
                     \/ MonthFromTime t = 6 \/ MonthFromTime t = 7 \/ MonthFromTime t = 8
                     \/ MonthFromTime t = 9 \/ MonthFromTime t = 10 \/ MonthFromTime t = 11)
      by lia.
    destruct (isLeapYear (YearFromTime t));
      repeat (destruct Hcases as [->|Hcases]; [simpl; lia|]); rewrite Hcases; simpl; lia. }
  assert (Hh : 0 <= HourFromTime t < 24) by (apply Z.mod_pos_bound; lia).
  assert (Hmi : 0 <= MinFromTime t < 60) by (apply Z.mod_pos_bound; lia).
  assert (Hs : 0 <= SecFromTime t < 60) by (apply Z.mod_pos_bound; lia).
  assert (Hms : 0 <= msFromTime t < 1000) by (apply Z.mod_pos_bound; reflexivity).
  unfold Date_parse_iso.
  rewrite (padReadsBack_upto 4 10000 _ _ pad4_readsBack) by lia.
  cbn [mbind option_bind]. rewrite expectChar_here. cbn [mbind option_bind].
  rewrite (padReadsBack_upto 2 100 _ _ pad2_readsBack) by lia.
  cbn [mbind option_bind]. rewrite expectChar_here. cbn [mbind option_bind].
  rewrite (padReadsBack_upto 2 100 _ _ pad2_readsBack) by lia.
  cbn [mbind option_bind]. rewrite expectChar_here. cbn [mbind option_bind].
  rewrite (padReadsBack_upto 2 100 _ _ pad2_readsBack) by lia.
  cbn [mbind option_bind]. rewrite expectChar_here. cbn [mbind option_bind].
  rewrite (padReadsBack_upto 2 100 _ _ pad2_readsBack) by lia.
  cbn [mbind option_bind]. rewrite expectChar_here. cbn [mbind option_bind].
  rewrite (padReadsBack_upto 2 100 _ _ pad2_readsBack) by lia.
  cbn [mbind option_bind]. rewrite expectChar_here. cbn [mbind option_bind].
  rewrite (padReadsBack_upto 3 1000 _ _ pad3_readsBack) by lia.
  cbn [mbind option_bind].
  change (expectChar "Z"%char "Z"%string) with (Some ""%string). cbn [mbind option_bind].
  change ("" =? "")%string with true.
  replace (MonthFromTime t + 1 - 1) with (MonthFromTime t) by lia.
  repeat match goal with
         | |- context [?a <=? ?b] =>
             replace (a <=? b) with true by (symmetry; apply Z.leb_le; lia)
         end.
  simpl. rewrite MakeDay_fields, MakeTime_fields.
  unfold MakeDate. now rewrite TimeWithinDay_decompose.
Qed.

End TimeValues.

(** ** Derived date of an event (C10) *)



(** ** Derived fields of the detail view (C2) *)




(** ** Venue lookup (C9) *)

Lemma getProperty_own o k v :
  Js.ownProperty o k = Some v -> Js.getProperty o k = Js.VString v.
Proof. unfold Js.getProperty. now intros ->. Qed.

Lemma ownProperty_None o k :
  ~ In k (map fst o) -> Js.ownProperty o k = None.
Proof.
  induction o as [|[k' v] o IH]; simpl; intros Hnot; [reflexivity|].
  case_decide as Hk; [exfalso; apply Hnot; now left|].
  apply IH. intros Hin. apply Hnot. now right.
Qed.

(** For each of the twenty categories of its table, [getLocation]
    returns the venue of the table; for a category that is neither in
    the table nor the name of a member of [Object.prototype], the empty
    string included, it returns the default venue of the page. *)
Lemma getLocation_table_or_default (category : string) :
  (forall venue, In (category, venue) EventDetailPage.locations ->
                 EventDetailPage.getLocation category = Js.VString venue)
  /\ (forall venue, In (category, venue) EventsPage.locations ->
                    EventsPage.getLocation category = Js.VString venue)
  /\ (~ In category (map fst EventDetailPage.locations) ->
      Js.ObjectPrototype_get category = Js.VUndefined ->
      EventDetailPage.getLocation category = Js.VString "Event Center, Main Street"
      /\ EventsPage.getLocation category = Js.VString "Event Center").
Proof.
  split; [|split].
  - intros venue Hin. simpl in Hin.
    repeat (destruct Hin as [Hin|Hin];
            [injection Hin as <- <-; reflexivity|]).
    destruct Hin.
  - intros venue Hin. simpl in Hin.
    repeat (destruct Hin as [Hin|Hin];
            [injection Hin as <- <-; reflexivity|]).
    destruct Hin.
  - intros Hnot Hproto.
    assert (Hd : Js.ownProperty EventDetailPage.locations category = None)
      by now apply ownProperty_None.
    assert (Hl : Js.ownProperty EventsPage.locations category = None)
      by now apply ownProperty_None.
    unfold EventDetailPage.getLocation, EventsPage.getLocation, Js.getProperty.
    rewrite Hd, Hl, Hproto. split; reflexivity.
Qed.

(** C9 fails on the code: for a category that names a member of
    [Object.prototype], the lookup [locations[category]] finds the
    inherited member, which is truthy, so the default is not taken and
    what [getLocation] returns is not a venue text.  Here the category
    "constructor" yields the function [Object] on both pages. *)
Theorem getLocation_inherited_property :
  EventDetailPage.getLocation "constructor" = Js.VFunction "constructor"
  /\ EventsPage.getLocation "constructor" = Js.VFunction "constructor"
  /\ EventDetailPage.getLocation "__proto__" = Js.VObjectPrototype
  /\ EventsPage.getLocation "__proto__" = Js.VObjectPrototype
  /\ ~ In "constructor" (map fst EventDetailPage.locations)
  /\ (forall venue, EventDetailPage.getLocation "constructor" <> Js.VString venue)
  /\ (forall venue, EventsPage.getLocation "constructor" <> Js.VString venue).
Proof.
  repeat split.
  - simpl. intros H. repeat (destruct H as [H|H]; [discriminate H|]). exact H.
  - intros venue H. vm_compute in H. discriminate H.
  - intros venue H. vm_compute in H. discriminate H.
Qed.

(** ** Search filter of the list view (C5) *)

Lemma prefix_true_iff (needle hay : string) :
  String.prefix needle hay = true <-> exists after, hay = needle ++ after.
Proof.
  revert hay. induction needle as [|c needle IH]; intros hay.
  - split; [intros _; now exists hay | intros _; now destruct hay].
  - destruct hay as [|c' hay]; simpl.
    + split; [discriminate | intros [after H]; discriminate H].
    + destruct (ascii_dec c c') as [<-|Hne].
      * rewrite IH. split; intros [after H]; exists after.
        -- now rewrite H.
        -- now injection H.
      * split; [discriminate|]. intros [after H]. injection H as H1 H2. congruence.
Qed.

Lemma includes_EmptyString (needle : string) :
  Js.includes "" needle = String.prefix needle "" || false.
Proof. reflexivity. Qed.

Lemma includes_String (c : ascii) (hay needle : string) :
  Js.includes (String c hay) needle
  = String.prefix needle (String c hay) || Js.includes hay needle.
Proof. reflexivity. Qed.

Lemma includes_occursIn (hay needle : string) :
  Js.includes hay needle = true <-> occursIn needle hay.
Proof.
  induction hay as [|c hay IH].
  - rewrite includes_EmptyString, orb_false_r, prefix_true_iff. split.
    + intros [after H]. now exists "", after.
    + intros (before & after & H). destruct before; [|discriminate H].
      now exists after.
  - rewrite includes_String, orb_true_iff, prefix_true_iff, IH. split.
    + intros [[after H]|(before & after & H)].
      * now exists "", after.
      * exists (String c before), after. simpl. now rewrite H.
    + intros (before & after & H). destruct before as [|c' before].
      * left. now exists after.
      * right. injection H as _ H. now exists before, after.
Qed.

Lemma includes_empty (hay : string) : Js.includes hay "" = true.
Proof. apply includes_occursIn. now exists "", hay. Qed.

Lemma filter_sublist {A : Type} (f : A -> bool) (l : list A) :
  sublist (List.filter f l) l.
Proof.
  induction l as [|x l IH]; simpl.
  - constructor.
  - destruct (f x); now constructor.
Qed.

Lemma filter_all {A : Type} (f : A -> bool) (l : list A) :
  (forall x, In x l -> f x = true) -> List.filter f l = l.
Proof.
  induction l as [|x l IH]; simpl; intros H; [reflexivity|].
  rewrite (H x) by now left. f_equal. apply IH. intros y Hy. apply H. now right.
Qed.

Section SearchFilter.
Variable toLowerCase : string -> string.
Hypothesis toLowerCase_empty : toLowerCase "" = "".

(** C5.  Whatever list was fetched and whatever was typed in the
    search box, the events shown are exactly the fetched events whose
    title or category contains the search term as a substring (both
    sides lower-cased, as the page compares them), in the order of the
    fetched list; with the empty search term the list is shown whole. *)
Theorem filteredEvents_substring_match (s : EventsPage.State) :
  let term := toLowerCase (EventsPage.searchTerm s) in
  let shown := EventsPage.filteredEvents toLowerCase s in
  (forall e, In e shown <->
             In e (EventsPage.events s)
             /\ (occursIn term (toLowerCase (Event.title e))
                 \/ occursIn term (toLowerCase (Event.category e))))
  /\ sublist shown (EventsPage.events s)
  /\ (EventsPage.searchTerm s = "" -> shown = EventsPage.events s).
Proof.
  intros term shown. subst term shown. unfold EventsPage.filteredEvents.
  split; [|split].
  - intros e. rewrite filter_In. unfold EventsPage.matchesSearch.
    now rewrite orb_true_iff, !includes_occursIn.
  - apply filter_sublist.
  - intros Hterm. apply filter_all. intros e _.
    unfold EventsPage.matchesSearch.
    now rewrite Hterm, toLowerCase_empty, includes_empty.
Qed.

End SearchFilter.

Lemma filteredEvents_substring_match_witness :
  Js.toLowerCase_ascii "" = ""
  /\ EventsPage.filteredEvents Js.toLowerCase_ascii
       (EventsPage.mkState sampleCatalogue false "PHONE" None [])
     = [ Event.mk 2 "iPhone 15" "A phone" 999%float "/2.webp" "smartphones"
                  4.5%float 7 "Apple";
         Event.mk 3 "Phone Stand" "A stand" 12%float "/3.webp" "mobile-accessories"
                  4%float 30 "Generic" ]
  /\ sublist (EventsPage.filteredEvents Js.toLowerCase_ascii
                (EventsPage.mkState sampleCatalogue false "PHONE" None []))
             sampleCatalogue.
Proof.
  split; [reflexivity|]. split; [vm_compute; reflexivity|].
  exact (proj1 (proj2 (filteredEvents_substring_match Js.toLowerCase_ascii eq_refl
                         (EventsPage.mkState sampleCatalogue false "PHONE" None [])))).
Defined.

(** ** Fetching the catalogue (C8) *)

(** C8.  A failed fetch keeps the event list held before, sets the
    error message, clears the loading flag, and the page then shows the
    message in the error panel whose button is bound to [fetchEvents]
    itself.  A successful fetch clears the error, clears the loading
    flag and replaces the list by the products of the response. *)
Theorem fetchEvents_outcome (toLowerCase : string -> string)
  (r : EventsPage.FetchResult) (s : EventsPage.State) :
  let s' := EventsPage.fetchEvents r s in
  (fetchFailed r ->
     EventsPage.events s' = EventsPage.events s
     /\ EventsPage.error s' = Some "Failed to load events. Please try again."
     /\ EventsPage.loading s' = false
     /\ EventsPage.render toLowerCase s'
        = EventsPage.Page
            (Some (EventsPage.mkErrorPanel "Failed to load events. Please try again."
                                           EventsPage.fetchEvents))
            (EventsPage.filteredEvents toLowerCase s') false)
  /\ (forall data, r = EventsPage.Response true (Some data) ->
        EventsPage.events s' = EventsPage.products data
        /\ EventsPage.error s' = None
        /\ EventsPage.loading s' = false).
Proof.
  intros s'. subst s'. split.
  - intros Hfail.
    assert (Hs : EventsPage.fetchEvents r s
                 = EventsPage.mkState (EventsPage.events s) false (EventsPage.searchTerm s)
                     (Some "Failed to load events. Please try again.")
                     (EventsPage.toasts s
                      ++ [Toast.mk "Error" "Failed to load events. Please check your connection."
                                   (Some "destructive")])%list).
    { destruct r as [|[|] [data|]]; simpl in Hfail; try contradiction; reflexivity. }
    rewrite Hs. simpl. repeat split.
    unfold EventsPage.render. simpl. now rewrite andb_false_r.
  - intros data ->. repeat split.
Qed.

Lemma fetchEvents_outcome_witness :
  fetchFailed (EventsPage.Response false None)
  /\ EventsPage.events
       (EventsPage.fetchEvents (EventsPage.Response false None)
          (EventsPage.mkState sampleCatalogue false "" None []))
     = sampleCatalogue.
Proof.
  split; [exact I|].
  exact (proj1 (proj1 (fetchEvents_outcome Js.toLowerCase_ascii
                         (EventsPage.Response false None)
                         (EventsPage.mkState sampleCatalogue false "" None [])) I)).
Defined.

(** ** Sorting of the profile view (C6) *)

Section ArraySortFacts.
Context {A : Type} (comparefn : A -> A -> option Z).

Lemma sortInsert_Permutation (x : A) (l : list A) :
  Permutation (sortInsert comparefn x l) (x :: l).
Proof.
  induction l as [|y l IH]; simpl.
  - reflexivity.
  - destruct (SortCompare comparefn x y <=? 0).
    + reflexivity.
    + rewrite IH. apply perm_swap.
Qed.

Lemma Array_sort_Permutation (l : list A) : Permutation (Array_sort comparefn l) l.
Proof.
  induction l as [|x l IH]; simpl.
  - reflexivity.
  - rewrite sortInsert_Permutation. now apply perm_skip.
Qed.

Lemma Array_sort_In (x : A) (l : list A) : In x (Array_sort comparefn l) <-> In x l.
Proof.
  split; apply Permutation_in;
    [apply Array_sort_Permutation | symmetry; apply Array_sort_Permutation].
Qed.

(** [before] describes the order the comparator asks for: on the
    elements at hand, a non-positive result means the first argument may
    come first, a positive one that the second may, and [before] is
    transitive. *)
Variable before : A -> A -> Prop.

Lemma sortInsert_StronglySorted (x : A) (l : list A) :
  (forall y, In y l -> SortCompare comparefn x y <= 0 -> before x y) ->
  (forall y, In y l -> 0 < SortCompare comparefn x y -> before y x) ->
  (forall y z, In y l -> In z l -> before x y -> before y z -> before x z) ->
  StronglySorted before l ->
  StronglySorted before (sortInsert comparefn x l).
Proof.
  intros Hle Hgt Htrans Hsorted.
  induction Hsorted as [|y l Hsorted IH Hall]; simpl.
  - repeat constructor.
  - destruct (Z.leb_spec (SortCompare comparefn x y) 0) as [Hc|Hc].
    + assert (Hxy : before x y) by (apply Hle; [now left | exact Hc]).
      constructor; [now constructor|].
      constructor; [exact Hxy|].
      rewrite List.Forall_forall in Hall |- *. intros z Hz.
      apply (Htrans y z); [now left | now right | exact Hxy | now apply Hall].
    + constructor.
      * apply IH.
        -- intros z Hz. apply Hle. now right.
        -- intros z Hz. apply Hgt. now right.
        -- intros z w Hz Hw. apply Htrans; now right.
      * rewrite List.Forall_forall in Hall |- *. intros z Hz.
        apply (Permutation_in _ (sortInsert_Permutation x l)) in Hz.
        destruct Hz as [<-|Hz]; [apply Hgt; [now left | exact Hc] | now apply Hall].
Qed.

Lemma Array_sort_StronglySorted (l : list A) :
  (forall x y, In x l -> In y l -> SortCompare comparefn x y <= 0 -> before x y) ->
  (forall x y, In x l -> In y l -> 0 < SortCompare comparefn x y -> before y x) ->
  (forall x y z, In x l -> In y l -> In z l -> before x y -> before y z -> before x z) ->
  StronglySorted before (Array_sort comparefn l).
Proof.
  induction l as [|x l IH]; simpl; intros Hle Hgt Htrans.
  - constructor.
  - apply sortInsert_StronglySorted.
    + intros y Hy. apply (proj1 (Array_sort_In _ _)) in Hy. apply Hle; [now left | now right].
    + intros y Hy. apply (proj1 (Array_sort_In _ _)) in Hy. apply Hgt; [now left | now right].
    + intros y z Hy Hz. apply (proj1 (Array_sort_In _ _)) in Hy. apply (proj1 (Array_sort_In _ _)) in Hz.
      apply Htrans; [now left | now right | now right].
    + apply IH.
      * intros y z Hy Hz. apply Hle; now right.
      * intros y z Hy Hz. apply Hgt; now right.
      * intros y z w Hy Hz Hw. apply Htrans; now right.
Qed.

End ArraySortFacts.

(** C6.  With a signed-in user, [loadRegisteredEvents] puts in the page
    state a permutation of the stored registration list and clears the
    loading flag; when every stored [registeredAt] text denotes a time
    value, that list is sorted newest first by those time values. *)
Theorem loadRegisteredEvents_sorted_permutation
  (Date_getTime : string -> option Z) (u : User.t)
  (ls : localStorage) (s : ProfilePage.State) :
  Forall (fun r => is_Some (Date_getTime (RegisteredEvent.registeredAt r)))
         (storedRegistrations u ls) ->
  let s' := ProfilePage.loadRegisteredEvents (Some u) Date_getTime ls s in
  Permutation (ProfilePage.registeredEvents s') (storedRegistrations u ls)
  /\ StronglySorted (notOlder Date_getTime) (ProfilePage.registeredEvents s')
  /\ ProfilePage.loading s' = false.
Proof.
  intros Hvalid s'. subst s'. simpl. fold (storedRegistrations u ls).
  split; [apply Array_sort_Permutation|]. split; [|reflexivity].
  rewrite List.Forall_forall in Hvalid.
  assert (Hcmp : forall x y,
             In x (storedRegistrations u ls) -> In y (storedRegistrations u ls) ->
             exists tx ty,
               Date_getTime (RegisteredEvent.registeredAt x) = Some tx
               /\ Date_getTime (RegisteredEvent.registeredAt y) = Some ty
               /\ SortCompare (ProfilePage.byRegistrationDate Date_getTime) x y = ty - tx).
  { intros x y Hx Hy.
    destruct (Hvalid x Hx) as [tx Htx], (Hvalid y Hy) as [ty Hty].
    exists tx, ty. unfold SortCompare, ProfilePage.byRegistrationDate.
    now rewrite Htx, Hty. }
  apply Array_sort_StronglySorted.
  - intros x y Hx Hy Hle. destruct (Hcmp x y Hx Hy) as (tx & ty & Htx & Hty & Heq).
    exists tx, ty. repeat split; [assumption..|lia].
  - intros x y Hx Hy Hgt. destruct (Hcmp x y Hx Hy) as (tx & ty & Htx & Hty & Heq).
    exists ty, tx. repeat split; [assumption..|lia].
  - intros x y z _ _ _ (tx & ty & Htx & Hty & Hxy) (ty' & tz & Hty' & Htz & Hyz).
    exists tx, tz. repeat split; [assumption..|].
    rewrite Hty in Hty'. injection Hty' as <-. lia.
Qed.

Lemma loadRegisteredEvents_sorted_permutation_witness :
  Forall (fun r => is_Some (Js.Date_parse_iso (RegisteredEvent.registeredAt r)))
         (storedRegistrations sampleUser sampleStorage)
  /\ map RegisteredEvent.id
       (ProfilePage.registeredEvents
          (ProfilePage.loadRegisteredEvents (Some sampleUser) Js.Date_parse_iso
             sampleStorage ProfilePage.initialState))
     = [3; 2; 1]
  /\ StronglySorted (notOlder Js.Date_parse_iso)
       (ProfilePage.registeredEvents
          (ProfilePage.loadRegisteredEvents (Some sampleUser) Js.Date_parse_iso
             sampleStorage ProfilePage.initialState)).
Proof.
  assert (Hvalid : Forall (fun r => is_Some (Js.Date_parse_iso (RegisteredEvent.registeredAt r)))
                          (storedRegistrations sampleUser sampleStorage)).
  { replace (storedRegistrations sampleUser sampleStorage) with sampleRegistrations
      by (vm_compute; reflexivity).
    repeat (apply List.Forall_cons; [eexists; reflexivity|]). apply List.Forall_nil. }
  split; [exact Hvalid|]. split; [vm_compute; reflexivity|].
  exact (proj1 (proj2 (loadRegisteredEvents_sorted_permutation Js.Date_parse_iso
                         sampleUser sampleStorage ProfilePage.initialState Hvalid))).
Defined.

(** The [registeredAt] text of a registration made at a clock reading
    in the years 0 to 9999 denotes that clock reading, so the lists that
    [handleRegister] writes satisfy the premise of the sorting theorem. *)
Lemma newRegistration_registeredAt (nowRegistered nowFormat : Z) (e : EventDetail.t) :
  0 <= Js.YearFromTime nowRegistered <= 9999 ->
  Js.Date_parse_iso
    (RegisteredEvent.registeredAt
       (EventDetailPage.newRegistration nowRegistered nowFormat e))
  = Some nowRegistered.
Proof. intros Hy. simpl. now apply Date_parse_iso_toISOString. Qed.

(** ** The registration store *)

Lemma JSON_roundtrip_idempotent (r : RegisteredEvent.t) :
  RegisteredEvent.JSON_roundtrip (RegisteredEvent.JSON_roundtrip r)
  = RegisteredEvent.JSON_roundtrip r.
Proof. destruct r as [? ? ? ? ? ? ? []]; reflexivity. Qed.

Lemma JSON_roundtrip_id (r : RegisteredEvent.t) :
  RegisteredEvent.id (RegisteredEvent.JSON_roundtrip r) = RegisteredEvent.id r.
Proof. reflexivity. Qed.

Lemma map_JSON_roundtrip_idempotent (l : list RegisteredEvent.t) :
  map RegisteredEvent.JSON_roundtrip (map RegisteredEvent.JSON_roundtrip l)
  = map RegisteredEvent.JSON_roundtrip l.
Proof.
  rewrite map_map. apply map_ext. intros r. apply JSON_roundtrip_idempotent.
Qed.

Lemma roundtripStable_map (l : list RegisteredEvent.t) :
  roundtripStable l -> map RegisteredEvent.JSON_roundtrip l = l.
Proof.
  induction 1 as [|r l Hr _ IH]; simpl; [reflexivity|]. now rewrite Hr, IH.
Qed.

Lemma readRegistrations_stable (k : string) (ls : localStorage) :
  roundtripStable (readRegistrations k ls).
Proof.
  unfold roundtripStable, readRegistrations. destruct (ls !! k) as [doc|]; [|constructor].
  apply List.Forall_forall. intros r Hr. apply in_map_iff in Hr as (r0 & <- & _).
  apply JSON_roundtrip_idempotent.
Qed.

Lemma roundtripStable_filter (f : RegisteredEvent.t -> bool) (l : list RegisteredEvent.t) :
  roundtripStable l -> roundtripStable (List.filter f l).
Proof.
  unfold roundtripStable. rewrite !List.Forall_forall. intros H r Hr.
  apply filter_In in Hr as [Hr _]. now apply H.
Qed.


Lemma readRegistrations_insert (k : string) (doc : list RegisteredEvent.t) (ls : localStorage) :
  readRegistrations k (<[k := doc]> ls) = map RegisteredEvent.JSON_roundtrip doc.
Proof. unfold readRegistrations. now rewrite lookup_insert_eq. Qed.

Lemma readRegistrations_insert_ne (k k' : string) (doc : list RegisteredEvent.t)
  (ls : localStorage) :
  k <> k' -> readRegistrations k' (<[k := doc]> ls) = readRegistrations k' ls.
Proof. intros Hne. unfold readRegistrations. now rewrite lookup_insert_ne. Qed.

Lemma registrationsKey_inj (u v : User.t) :
  registrationsKey u = registrationsKey v -> User.id u = User.id v.
Proof. unfold registrationsKey. simpl. intros H. now injection H. Qed.

(** ** Uniqueness of identifiers *)

Lemma hasId_In (n : Z) (l : list RegisteredEvent.t) :
  hasId n l = true <-> In n (map RegisteredEvent.id l).
Proof.
  unfold hasId. rewrite existsb_exists, in_map_iff.
  split; intros (r & H1 & H2); exists r.
  - split; [now apply Z.eqb_eq | assumption].
  - split; [assumption | now apply Z.eqb_eq].
Qed.

Lemma map_id_filter_otherThan (n : Z) (l : list RegisteredEvent.t) :
  map RegisteredEvent.id (List.filter (otherThan n) l)
  = List.filter (fun i => negb (i =? n)) (map RegisteredEvent.id l).
Proof.
  induction l as [|r l IH]; simpl; [reflexivity|].
  unfold otherThan at 1. destruct (RegisteredEvent.id r =? n); simpl; now rewrite IH.
Qed.

Lemma uniqueIds_filter (f : RegisteredEvent.t -> bool) (l : list RegisteredEvent.t) :
  uniqueIds l -> uniqueIds (List.filter f l).
Proof.
  unfold uniqueIds. induction l as [|r l IH]; simpl; intros H; [constructor|].
  apply List.NoDup_cons_iff in H as [Hnotin Hnodup].
  destruct (f r); simpl; [|now apply IH].
  apply List.NoDup_cons_iff. split; [|now apply IH].
  intros Hin. apply Hnotin. apply in_map_iff in Hin as (r' & Hid & Hr').
  apply filter_In in Hr' as [Hr' _]. apply in_map_iff. now exists r'.
Qed.

Lemma uniqueIds_Permutation (l l' : list RegisteredEvent.t) :
  Permutation l l' -> uniqueIds l -> uniqueIds l'.
Proof.
  unfold uniqueIds. intros Hp. apply Permutation_NoDup. now apply Permutation_map.
Qed.

Lemma uniqueIds_snoc (r : RegisteredEvent.t) (l : list RegisteredEvent.t) :
  uniqueIds l -> hasId (RegisteredEvent.id r) l = false -> uniqueIds (l ++ [r]).
Proof.
  unfold uniqueIds. intros Hl Hnot. rewrite map_app. simpl.
  apply (Permutation_NoDup (l := RegisteredEvent.id r :: map RegisteredEvent.id l)).
  - rewrite Permutation_app_comm. reflexivity.
  - apply List.NoDup_cons_iff. split; [|assumption].
    intros Hin. apply hasId_In in Hin. congruence.
Qed.

Lemma uniqueIds_map_JSON_roundtrip (l : list RegisteredEvent.t) :
  uniqueIds (map RegisteredEvent.JSON_roundtrip l) <-> uniqueIds l.
Proof.
  unfold uniqueIds. rewrite map_map.
  now rewrite (map_ext _ RegisteredEvent.id JSON_roundtrip_id).
Qed.


Lemma hasId_app (n : Z) (l1 l2 : list RegisteredEvent.t) :
  hasId n (l1 ++ l2) = hasId n l1 || hasId n l2.
Proof. apply existsb_app. Qed.

Lemma hasId_filter_otherThan (n : Z) (l : list RegisteredEvent.t) :
  hasId n (List.filter (otherThan n) l) = false.
Proof.
  apply not_true_is_false. intros H. apply hasId_In in H.
  rewrite map_id_filter_otherThan in H. apply filter_In in H as [_ H].
  now rewrite Z.eqb_refl in H.
Qed.

Lemma hasId_map_JSON_roundtrip (n : Z) (l : list RegisteredEvent.t) :
  hasId n (map RegisteredEvent.JSON_roundtrip l) = hasId n l.
Proof. unfold hasId. induction l as [|r l IH]; simpl; [reflexivity|]. now rewrite IH. Qed.


(** ** The registration toggle *)

Lemma handleRegister_unregister_branch (u : User.t) (nowRegistered nowFormat : Z)
  (ls : localStorage) (s : EventDetailPage.State) (e : EventDetail.t) :
  EventDetailPage.event s = Some e ->
  EventDetailPage.isRegistered s = true ->
  let r := EventDetailPage.handleRegister (Some u) nowRegistered nowFormat ls s in
  r.1 = <[registrationsKey u :=
            List.filter (otherThan (EventDetail.id e)) (storedRegistrations u ls)]> ls
  /\ EventDetailPage.isRegistered r.2 = false
  /\ EventDetailPage.event r.2 = Some e.
Proof.
  intros He Hreg. unfold EventDetailPage.handleRegister. rewrite He. simpl.
  rewrite Hreg. simpl. now rewrite He.
Qed.

Lemma handleRegister_register_branch (u : User.t) (nowRegistered nowFormat : Z)
  (ls : localStorage) (s : EventDetailPage.State) (e : EventDetail.t) :
  EventDetailPage.event s = Some e ->
  EventDetailPage.isRegistered s = false ->
  let r := EventDetailPage.handleRegister (Some u) nowRegistered nowFormat ls s in
  r.1 = <[registrationsKey u :=
            (storedRegistrations u ls
             ++ [EventDetailPage.newRegistration nowRegistered nowFormat e])%list]> ls
  /\ EventDetailPage.isRegistered r.2 = true
  /\ EventDetailPage.event r.2 = Some e.
Proof.
  intros He Hreg. unfold EventDetailPage.handleRegister. rewrite He. simpl.
  rewrite Hreg. simpl. now rewrite He.
Qed.

Lemma handleUnregister_store (u : User.t) (eventId : Z) (eventTitle : string)
  (ls : localStorage) (s : ProfilePage.State) :
  let r := ProfilePage.handleUnregister (Some u) eventId eventTitle ls s in
  r.1 = <[registrationsKey u :=
            List.filter (otherThan eventId) (ProfilePage.registeredEvents s)]> ls
  /\ ProfilePage.registeredEvents r.2
     = List.filter (otherThan eventId) (ProfilePage.registeredEvents s).
Proof. split; reflexivity. Qed.

Lemma stored_after_filter (u : User.t) (n : Z) (l : list RegisteredEvent.t)
  (ls : localStorage) :
  roundtripStable l ->
  storedRegistrations u (<[registrationsKey u := List.filter (otherThan n) l]> ls)
  = List.filter (otherThan n) l.
Proof.
  intros Hl. unfold storedRegistrations. rewrite readRegistrations_insert.
  apply roundtripStable_map. now apply roundtripStable_filter.
Qed.

(** ** Registering (C3) *)



(** ** Unregistering (C4) *)




(** ** At most one registration per event (C1) *)

(** C1, as stated, fails: [handleRegister] chooses its branch by the
    page's [isRegistered] flag, which [checkRegistrationStatus] computed
    when the page was mounted, and not by a look at the list it has
    just read.  Two instances of the detail page of event 1 are mounted
    on a store without registrations; both hold the flag [false].  The
    first registers; the second then registers too and appends a second
    registration with identifier 1. *)
Lemma stale_flag_duplicates_registration :
  let mounted :=
    EventDetailPage.effect_fetchEventDetail "1"
      (EventDetailPage.Response true (Some sampleEvent))
      (EventDetailPage.effect_checkRegistrationStatus (Some sampleUser) "1" ∅
         EventDetailPage.initialState) in
  let firstPage := mounted in
  let secondPage := mounted in
  let ls1 := (EventDetailPage.handleRegister (Some sampleUser)
                1762128000000 1762128000000 ∅ firstPage).1 in
  let ls2 := (EventDetailPage.handleRegister (Some sampleUser)
                1762128060000 1762128060000 ls1 secondPage).1 in
  uniqueIds (storedRegistrations sampleUser ls1)
  /\ map RegisteredEvent.id (storedRegistrations sampleUser ls2) = [1; 1]
  /\ ~ uniqueIds (storedRegistrations sampleUser ls2).
Proof.
  split; [|split].
  - vm_compute. repeat constructor. intros [].
  - vm_compute. reflexivity.
  - intros H. unfold uniqueIds in H.
    replace (map RegisteredEvent.id _) with [1; 1] in H by (vm_compute; reflexivity).
    apply List.NoDup_cons_iff in H as [H _]. apply H. now left.
Qed.

(** C1, amended.  As long as the page's [isRegistered] flag agrees with
    the stored list (it is [true] exactly when the list holds a
    registration of the loaded event), a stored list without duplicate
    identifiers stays without duplicates through [handleRegister], and
    the flag agrees with the list again afterwards;
    [checkRegistrationStatus] makes the flag agree when the route
    parameter reads as the identifier of the loaded event.
    [handleRegister] appends only in its "register" state, and both
    unregister paths only remove: the list that [loadRegisteredEvents]
    displays has no duplicates, and neither has the list that
    [handleUnregister] writes from a displayed list without duplicates. *)
Theorem registrations_unique_while_flag_agrees (Date_getTime : string -> option Z)
  (u : User.t) (routeId : string) (nowRegistered nowFormat : Z) (ls : localStorage)
  (s : EventDetailPage.State) (e : EventDetail.t)
  (eventId : Z) (eventTitle : string) (p : ProfilePage.State) :
  EventDetailPage.event s = Some e ->
  uniqueIds (storedRegistrations u ls) ->
  (let r := EventDetailPage.handleRegister (Some u) nowRegistered nowFormat ls s in
   EventDetailPage.isRegistered s = hasId (EventDetail.id e) (storedRegistrations u ls) ->
   uniqueIds (storedRegistrations u r.1)
   /\ EventDetailPage.isRegistered r.2
      = hasId (EventDetail.id e) (storedRegistrations u r.1))
  /\ (Js.parseInt routeId = Some (EventDetail.id e) ->
      EventDetailPage.isRegistered
        (EventDetailPage.checkRegistrationStatus (Some u) routeId ls s)
      = hasId (EventDetail.id e) (storedRegistrations u ls))
  /\ uniqueIds (ProfilePage.registeredEvents
                  (ProfilePage.loadRegisteredEvents (Some u) Date_getTime ls p))
  /\ (uniqueIds (ProfilePage.registeredEvents p) ->
      let r := ProfilePage.handleUnregister (Some u) eventId eventTitle ls p in
      uniqueIds (storedRegistrations u r.1)
      /\ uniqueIds (ProfilePage.registeredEvents r.2)).
Proof.
  intros He Huniq. split; [|split; [|split]].
  - intros r Hflag. subst r.
    destruct (EventDetailPage.isRegistered s) eqn:Hreg.
    + destruct (handleRegister_unregister_branch u nowRegistered nowFormat ls s e He Hreg)
        as (-> & -> & _).
      rewrite stored_after_filter by apply readRegistrations_stable.
      split; [now apply uniqueIds_filter|].
      symmetry. apply hasId_filter_otherThan.
    + destruct (handleRegister_register_branch u nowRegistered nowFormat ls s e He Hreg)
        as (-> & -> & _).
      unfold storedRegistrations at 1 3. rewrite readRegistrations_insert.
      fold (storedRegistrations u ls).
      split.
      * apply uniqueIds_map_JSON_roundtrip, uniqueIds_snoc; [assumption|].
        now symmetry.
      * rewrite hasId_map_JSON_roundtrip, hasId_app. simpl.
        rewrite Z.eqb_refl. simpl. symmetry. apply orb_true_r.
  - intros Hparse. unfold EventDetailPage.checkRegistrationStatus. simpl.
    now rewrite Hparse.
  - simpl. apply (uniqueIds_Permutation (storedRegistrations u ls)); [|assumption].
    symmetry. apply Array_sort_Permutation.
  - intros Hp r. subst r.
    destruct (handleUnregister_store u eventId eventTitle ls p) as [-> ->].
    split; [|now apply uniqueIds_filter].
    unfold storedRegistrations. rewrite readRegistrations_insert.
    now apply uniqueIds_map_JSON_roundtrip, uniqueIds_filter.
Qed.

Lemma registrations_unique_while_flag_agrees_witness :
  EventDetailPage.event
    (EventDetailPage.mkState (Some sampleEvent) false None 0 true false []) = Some sampleEvent
  /\ uniqueIds (storedRegistrations sampleUser sampleStorage)
  /\ uniqueIds (ProfilePage.registeredEvents
                  (ProfilePage.loadRegisteredEvents (Some sampleUser) Js.Date_parse_iso
                     sampleStorage ProfilePage.initialState)).
Proof.
  assert (Huniq : uniqueIds (storedRegistrations sampleUser sampleStorage)).
  { unfold uniqueIds.
    replace (map RegisteredEvent.id _) with [1; 2; 3] by (vm_compute; reflexivity).
    repeat (apply List.NoDup_cons; [simpl; lia|]). apply List.NoDup_nil. }
  split; [reflexivity|]. split; [exact Huniq|].
  exact (proj1 (proj2 (proj2
           (registrations_unique_while_flag_agrees Js.Date_parse_iso sampleUser "1"
              1762128000123 1762131600123 sampleStorage
              (EventDetailPage.mkState (Some sampleEvent) false None 0 true false [])
              sampleEvent 2 "Event" ProfilePage.initialState eq_refl Huniq)))).
Defined.

(** ** One storage key per user (C7) *)

Lemma readRegistrations_local (k : string) (ls1 ls2 : localStorage) :
  ls1 !! k = ls2 !! k -> readRegistrations k ls1 = readRegistrations k ls2.
Proof. unfold readRegistrations. now intros ->. Qed.

Lemma handleRegister_usesOnlyKey (u : User.t) (nowRegistered nowFormat : Z)
  (s : EventDetailPage.State) :
  usesOnlyKey (registrationsKey u)
    (fun ls => EventDetailPage.handleRegister (Some u) nowRegistered nowFormat ls s).
Proof.
  split.
  - intros ls k' Hk. unfold EventDetailPage.handleRegister.
    destruct (EventDetailPage.event s) as [e|]; [|reflexivity].
    simpl. destruct (EventDetailPage.isRegistered s); simpl;
      now rewrite lookup_insert_ne.
  - intros ls1 ls2 Heq. unfold EventDetailPage.handleRegister.
    destruct (EventDetailPage.event s) as [e|]; [|now split].
    simpl. rewrite (readRegistrations_local _ ls1 ls2 Heq).
    destruct (EventDetailPage.isRegistered s); simpl;
      now rewrite !lookup_insert_eq.
Qed.

Lemma handleUnregister_usesOnlyKey (u : User.t) (eventId : Z) (eventTitle : string)
  (p : ProfilePage.State) :
  usesOnlyKey (registrationsKey u)
    (fun ls => ProfilePage.handleUnregister (Some u) eventId eventTitle ls p).
Proof.
  split.
  - intros ls k' Hk. simpl. now rewrite lookup_insert_ne.
  - intros ls1 ls2 _. simpl. now rewrite !lookup_insert_eq.
Qed.

(** C7.  Every operation that a page performs for user [u] on the
    registration store (reading the list, saving it, the status check,
    the toggle, loading the profile list, unregistering from the
    profile) uses only the key "registrations_" followed by the
    identifier of [u].  Hence for a user [v] with another identifier, a
    register or unregister performed for [u] leaves the entry of [v],
    and so the list stored for [v], as it was. *)
Theorem registrations_partitioned_by_user (Date_getTime : string -> option Z)
  (u v : User.t) (routeId : string) (nowRegistered nowFormat : Z)
  (events : list RegisteredEvent.t) (s : EventDetailPage.State)
  (eventId : Z) (eventTitle : string) (p : ProfilePage.State) (ls : localStorage) :
  User.id u <> User.id v ->
  registrationsKey u = "registrations_" ++ User.id u
  /\ usesOnlyKey (registrationsKey u)
       (fun ls => (ls, EventDetailPage.getRegisteredEvents (Some u) ls))
  /\ usesOnlyKey (registrationsKey u)
       (fun ls => (EventDetailPage.saveRegisteredEvents (Some u) events ls, tt))
  /\ usesOnlyKey (registrationsKey u)
       (fun ls => (ls, EventDetailPage.checkRegistrationStatus (Some u) routeId ls s))
  /\ usesOnlyKey (registrationsKey u)
       (fun ls => EventDetailPage.handleRegister (Some u) nowRegistered nowFormat ls s)
  /\ usesOnlyKey (registrationsKey u)
       (fun ls => (ls, ProfilePage.loadRegisteredEvents (Some u) Date_getTime ls p))
  /\ usesOnlyKey (registrationsKey u)
       (fun ls => ProfilePage.handleUnregister (Some u) eventId eventTitle ls p)
  /\ (let ls' := (EventDetailPage.handleRegister (Some u) nowRegistered nowFormat ls s).1 in
      ls' !! registrationsKey v = ls !! registrationsKey v
      /\ storedRegistrations v ls' = storedRegistrations v ls)
  /\ (let ls' := (ProfilePage.handleUnregister (Some u) eventId eventTitle ls p).1 in
      ls' !! registrationsKey v = ls !! registrationsKey v
      /\ storedRegistrations v ls' = storedRegistrations v ls).
Proof.
  intros Huv.
  assert (Hkey : registrationsKey v <> registrationsKey u).
  { intros H. apply Huv. symmetry. now apply registrationsKey_inj. }
  split; [reflexivity|].
  split; [split; [reflexivity|]|].
  { intros ls1 ls2 Heq. simpl. now rewrite (readRegistrations_local _ ls1 ls2 Heq). }
  split; [split|].
  { intros ls0 k' Hk. simpl. now rewrite lookup_insert_ne. }
  { intros ls1 ls2 _. simpl. now rewrite !lookup_insert_eq. }
  split; [split; [reflexivity|]|].
  { intros ls1 ls2 Heq. simpl. now rewrite (readRegistrations_local _ ls1 ls2 Heq). }
  split; [apply handleRegister_usesOnlyKey|].
  split; [split; [reflexivity|]|].
  { intros ls1 ls2 Heq. simpl. now rewrite (readRegistrations_local _ ls1 ls2 Heq). }
  split; [apply handleUnregister_usesOnlyKey|].
  split.
  - intros ls'. subst ls'.
    pose proof (proj1 (handleRegister_usesOnlyKey u nowRegistered nowFormat s)
                  ls (registrationsKey v) Hkey) as H.
    split; [exact H|]. now apply readRegistrations_local.
  - intros ls'. subst ls'.
    pose proof (proj1 (handleUnregister_usesOnlyKey u eventId eventTitle p)
                  ls (registrationsKey v) Hkey) as H.
    split; [exact H|]. now apply readRegistrations_local.
Qed.

Lemma registrations_partitioned_by_user_witness :
  User.id otherUser <> User.id sampleUser
  /\ storedRegistrations sampleUser
       (EventDetailPage.handleRegister (Some otherUser) 1762128000123 1762131600123
          sampleStorage
          (EventDetailPage.setEvent (Some sampleEvent) EventDetailPage.initialState)).1
     = storedRegistrations sampleUser sampleStorage.
Proof.
  assert (Hne : User.id otherUser <> User.id sampleUser) by discriminate.
  split; [exact Hne|].
  exact (proj2 (proj1 (proj2 (proj2 (proj2 (proj2 (proj2 (proj2 (proj2
           (registrations_partitioned_by_user Js.Date_parse_iso otherUser sampleUser "1"
              1762128000123 1762131600123 [] 
              (EventDetailPage.setEvent (Some sampleEvent) EventDetailPage.initialState)
              2 "Event" ProfilePage.initialState sampleStorage Hne)))))))))).
Defined.
